(** * Verification of the MCP demo server (src/main.py, src/agent.py)

    Python [str] values that name paths, parameters and messages are modelled
    as Rocq [string]s, i.e. Python strings whose code points lie in 0..255
    (one [ascii] per code point).  Decoded file contents may hold any code
    point and are modelled as [list N]. *)

From Stdlib Require Import String Ascii List Bool Arith NArith ZArith Lia.
From Stdlib Require Import Numbers.DecimalString.
Import ListNotations.
Open Scope string_scope.
Open Scope bool_scope.

(** ** Python string helpers *)
Module PyStr.

(** [s.startswith(d)] *)
Definition startswith (s d : string) : bool := String.prefix d s.

(** [path.split('/')] *)
Fixpoint split_sep (s : string) : list string :=
  match s with
  | EmptyString => [EmptyString]
  | String c r =>
      if Ascii.eqb c "/" then EmptyString :: split_sep r
      else match split_sep r with
           | x :: xs => String c x :: xs
           | [] => [String c EmptyString]
           end
  end.

(** [sep.join(xs)] *)
Fixpoint join (sep : string) (xs : list string) : string :=
  match xs with
  | [] => EmptyString
  | [x] => x
  | x :: xs' => x ++ sep ++ join sep xs'
  end.

(** [s.rstrip('/')] *)
Fixpoint rstrip_sep (s : string) : string :=
  match s with
  | EmptyString => EmptyString
  | String c r =>
      match rstrip_sep r with
      | EmptyString => if Ascii.eqb c "/" then EmptyString else String c EmptyString
      | r' => String c r'
      end
  end.

(** [c in string.ascii_letters + string.digits + '_'], the class [\w]
    of a regular expression compiled with [re.ASCII]. *)
Definition is_word_char (c : ascii) : bool :=
  let n := nat_of_ascii c in
  (Nat.leb 65 n && Nat.leb n 90) || (Nat.leb 97 n && Nat.leb n 122)
  || (Nat.leb 48 n && Nat.leb n 57) || Nat.eqb n 95.

(** [s.endswith('/')] *)
Fixpoint endswith_sep (s : string) : bool :=
  match s with
  | EmptyString => false
  | String c EmptyString => Ascii.eqb c "/"
  | String _ r => endswith_sep r
  end.

(** ['$' in s] *)
Fixpoint contains_char (c : ascii) (s : string) : bool :=
  match s with
  | EmptyString => false
  | String c' r => Ascii.eqb c c' || contains_char c r
  end.

(** A Python [dict] lookup over an association list (first binding wins). *)
Fixpoint dict_get (k : string) (d : list (string * string)) : option string :=
  match d with
  | [] => None
  | (k', v) :: d' => if String.eqb k k' then Some v else dict_get k d'
  end.

End PyStr.
Import PyStr.

(** ** posixpath *)
Module Posix.

(** [os.path.isabs] *)
Definition isabs (s : string) : bool := startswith s "/".

(** One iteration of the component loop of [posixpath.normpath];
    [new_comps] is kept reversed, so [new_comps[-1]] is its head. *)
Definition normpath_step (initial_slashes : nat) (new_comps : list string)
    (comp : string) : list string :=
  if (comp =? "") || (comp =? ".") then new_comps
  else if negb (comp =? "..")
          || ((initial_slashes =? 0)%nat && match new_comps with [] => true | _ => false end)
          || match new_comps with x :: _ => x =? ".." | [] => false end
  then comp :: new_comps
  else match new_comps with _ :: t => t | [] => [] end.

Fixpoint repeat_slash (n : nat) : string :=
  match n with O => EmptyString | S n' => String "/" (repeat_slash n') end.

(** [posixpath.normpath] *)
Definition normpath (path : string) : string :=
  if path =? "" then "."
  else
    let initial_slashes : nat :=
      if startswith path "/" then
        if startswith path "//" && negb (startswith path "///") then 2 else 1
      else 0 in
    let comps := fold_left (normpath_step initial_slashes) (split_sep path) [] in
    let p := join "/" (rev comps) in
    let p := if (initial_slashes =? 0)%nat then p else repeat_slash initial_slashes ++ p in
    if p =? "" then "." else p.

(** [posixpath.join(a, b)] for two components *)
Definition join2 (a b : string) : string :=
  if startswith b "/" then b
  else if (a =? "") || endswith_sep a then a ++ b
  else a ++ "/" ++ b.

(** [os.path.abspath] with [os.getcwd()] equal to [cwd] *)
Definition abspath (cwd p : string) : string :=
  normpath (if isabs p then p else join2 cwd p).

(** The matched variable name after a ['$'] for the pattern
    [\$(\w+|\{[^}]*\})]: [Some (group1, name, rest)]. *)
Fixpoint take_word (s : string) : string * string :=
  match s with
  | String c r =>
      if is_word_char c then let (w, rest) := take_word r in (String c w, rest)
      else (EmptyString, s)
  | EmptyString => (EmptyString, EmptyString)
  end.

Fixpoint take_brace (s : string) : option (string * string) :=
  match s with
  | EmptyString => None
  | String c r =>
      if Ascii.eqb c "}" then Some (EmptyString, r)
      else match take_brace r with
           | Some (n, rest) => Some (String c n, rest)
           | None => None
           end
  end.

(** [Some (matched text after '$', variable name, rest)] *)
Definition match_var (s : string) : option (string * string * string) :=
  match s with
  | String "{" r =>
      match take_brace r with
      | Some (n, rest) => Some ("{" ++ n ++ "}", n, rest)
      | None => None
      end
  | _ => let (w, rest) := take_word s in
         if w =? "" then None else Some (w, w, rest)
  end.

(** The search-and-replace loop of [posixpath.expandvars]: a defined
    variable is replaced by its value and the search resumes after the
    value; an undefined one is kept and the search resumes after it. *)
Fixpoint expandvars_loop (fuel : nat) (environ : list (string * string)) (s : string)
    : string :=
  match fuel with
  | O => s
  | S fuel' =>
      match s with
      | EmptyString => EmptyString
      | String "$" r =>
          match match_var r with
          | Some (m, name, rest) =>
              match dict_get name environ with
              | Some v => v ++ expandvars_loop fuel' environ rest
              | None => String "$" m ++ expandvars_loop fuel' environ rest
              end
          | None => String "$" (expandvars_loop fuel' environ r)
          end
      | String c r => String c (expandvars_loop fuel' environ r)
      end
  end.

(** [os.path.expandvars] *)
Definition expandvars (environ : list (string * string)) (path : string) : string :=
  if negb (contains_char "$" path) then path
  else expandvars_loop (S (String.length path)) environ path.

End Posix.
Import Posix.

(** ** The process: environment, working directory, password database *)
Record Process := {
  environ : list (string * string);
  cwd : string;                        (** [os.getcwd()], an absolute path *)
  pw_home : option string              (** [pwd.getpwuid(os.getuid()).pw_dir] *)
}.

(** [os.path.expanduser("~" + rest)] for a [rest] starting with ['/'] *)
Definition expanduser_home (p : Process) (rest : string) : string :=
  match match dict_get "HOME" (environ p) with
        | Some h => Some h
        | None => pw_home p
        end with
  | None => "~" ++ rest
  | Some userhome =>
      let r := rstrip_sep userhome ++ rest in
      if r =? "" then "/" else r
  end.

(** Python exceptions that reach a caller *)
Inductive PyExc :=
| HTTPException (status_code : Z) (detail : string)
| ValueError (msg : string).

(** The [allowed_dirs] list built inside [normalize_path] *)
Definition allowed_dirs (p : Process) : list string :=
  [ expanduser_home p "/Documents";
    expanduser_home p "/Downloads";
    expanduser_home p "/Desktop";
    expanduser_home p "/github" ].

Definition access_denied : PyExc :=
  HTTPException 403 "File must be in Documents, Downloads, Desktop, or github directory".

(** The path string [normalize_path] tests: lines 128-135 *)
Definition normalized (p : Process) (file_path : string) : string :=
  let file_path := expandvars (environ p) file_path in
  let file_path := if negb (isabs file_path) then abspath (cwd p) file_path else file_path in
  normpath file_path.

(** [normalize_path], lines 125-151 *)
Definition normalize_path (p : Process) (file_path : string) : PyExc + string :=
  let file_path := normalized p file_path in
  if negb (existsb (fun d => startswith file_path d) (allowed_dirs p))
  then inl access_denied
  else inr file_path.

(** ** Text decoding (the codecs tried by [read_file]) *)
Module Codec.

Definition cont (b : N) : bool := (0x80 <=? b)%N && (b <=? 0xBF)%N.

Definition cp2 (b1 b2 : N) : N := (N.land b1 0x1F * 64 + N.land b2 0x3F)%N.
Definition cp3 (b1 b2 b3 : N) : N :=
  (N.land b1 0x0F * 4096 + N.land b2 0x3F * 64 + N.land b3 0x3F)%N.
Definition cp4 (b1 b2 b3 b4 : N) : N :=
  (N.land b1 0x07 * 262144 + N.land b2 0x3F * 4096
   + N.land b3 0x3F * 64 + N.land b4 0x3F)%N.

(** Range of the second byte of a three-byte sequence led by [b1]
    (excludes overlong forms and surrogates). *)
Definition second3_ok (b1 b2 : N) : bool :=
  if (b1 =? 0xE0)%N then (0xA0 <=? b2)%N && (b2 <=? 0xBF)%N
  else if (b1 =? 0xED)%N then (0x80 <=? b2)%N && (b2 <=? 0x9F)%N
  else cont b2.

(** Range of the second byte of a four-byte sequence led by [b1]
    (excludes overlong forms and code points above U+10FFFF). *)
Definition second4_ok (b1 b2 : N) : bool :=
  if (b1 =? 0xF0)%N then (0x90 <=? b2)%N && (b2 <=? 0xBF)%N
  else if (b1 =? 0xF4)%N then (0x80 <=? b2)%N && (b2 <=? 0x8F)%N
  else cont b2.

(** Python's strict ['utf-8'] decoder: [None] is a [UnicodeDecodeError]. *)
Fixpoint utf8_decode (bs : list N) : option (list N) :=
  match bs with
  | [] => Some []
  | b1 :: r1 =>
      if (b1 <? 0x80)%N then option_map (cons b1) (utf8_decode r1)
      else if (0xC2 <=? b1)%N && (b1 <=? 0xDF)%N then
        match r1 with
        | b2 :: r2 => if cont b2 then option_map (cons (cp2 b1 b2)) (utf8_decode r2)
                      else None
        | [] => None
        end
      else if (0xE0 <=? b1)%N && (b1 <=? 0xEF)%N then
        match r1 with
        | b2 :: b3 :: r3 =>
            if second3_ok b1 b2 && cont b3
            then option_map (cons (cp3 b1 b2 b3)) (utf8_decode r3) else None
        | _ => None
        end
      else if (0xF0 <=? b1)%N && (b1 <=? 0xF4)%N then
        match r1 with
        | b2 :: b3 :: b4 :: r4 =>
            if second4_ok b1 b2 && cont b3 && cont b4
            then option_map (cons (cp4 b1 b2 b3 b4)) (utf8_decode r4) else None
        | _ => None
        end
      else None
  end.

(** ['latin-1']: every byte is the code point of the same value. *)
Definition latin1_decode (bs : list N) : option (list N) := Some bs.

(** ['cp1252'] (Python's table: 0x81, 0x8D, 0x8F, 0x90 and 0x9D undefined) *)
Definition cp1252_char (b : N) : option N :=
  if (b <? 0x80)%N || (0xA0 <=? b)%N then Some b
  else nth (N.to_nat (b - 0x80))
    [Some 0x20AC; None; Some 0x201A; Some 0x0192; Some 0x201E; Some 0x2026;
     Some 0x2020; Some 0x2021; Some 0x02C6; Some 0x2030; Some 0x0160; Some 0x2039;
     Some 0x0152; None; Some 0x017D; None;
     None; Some 0x2018; Some 0x2019; Some 0x201C; Some 0x201D; Some 0x2022;
     Some 0x2013; Some 0x2014; Some 0x02DC; Some 0x2122; Some 0x0161; Some 0x203A;
     Some 0x0153; None; Some 0x017E; Some 0x0178]%N None.

Fixpoint cp1252_decode (bs : list N) : option (list N) :=
  match bs with
  | [] => Some []
  | b :: r =>
      match cp1252_char b, cp1252_decode r with
      | Some c, Some cs => Some (c :: cs)
      | _, _ => None
      end
  end.

Definition decode (encoding : string) (bs : list N) : option (list N) :=
  if encoding =? "utf-8" then utf8_decode bs
  else if encoding =? "latin-1" then latin1_decode bs
  else if encoding =? "cp1252" then cp1252_decode bs
  else None.

(** Universal-newline translation of text-mode reading
    ([newline=None]): ["\r\n"] and ["\r"] become ["\n"]. *)
Fixpoint translate_newlines (cs : list N) : list N :=
  match cs with
  | 13%N :: 10%N :: r => 10%N :: translate_newlines r
  | 13%N :: r => 10%N :: translate_newlines r
  | c :: r => c :: translate_newlines r
  | [] => []
  end.

(** [open(abs_path, 'r', encoding=encoding).read()] on a file holding [bs] *)
Definition read_text (encoding : string) (bs : list N) : option (list N) :=
  option_map translate_newlines (decode encoding bs).

(** The [for encoding in encodings] loop: first successful decode. *)
Fixpoint try_encodings (encodings : list string) (bs : list N) : option (list N) :=
  match encodings with
  | [] => None
  | e :: es =>
      match read_text e bs with
      | Some content => Some content
      | None => try_encodings es bs
      end
  end.

Definition encodings : list string := ["utf-8"; "latin-1"; "cp1252"].

End Codec.
Import Codec.

(** ** The filesystem as seen through [os.path] (symlinks already followed) *)
Inductive Entry :=
| RegularFile (contents : list N)      (** bytes, each in 0..255 *)
| Directory
| OtherNode.                            (** a fifo, socket or device *)

Definition FileSystem := string -> option Entry.

(** [os.path.exists] *)
Definition exists_ (fs : FileSystem) (path : string) : bool :=
  match fs path with Some _ => true | None => false end.

(** [os.path.isfile] *)
Definition isfile (fs : FileSystem) (path : string) : bool :=
  match fs path with Some (RegularFile _) => true | _ => false end.

(** [str(Path.home() / name)] for a normalized home directory *)
Definition ALLOWED_BASE_DIRS (p : Process) : list string :=
  [ expanduser_home p "/Documents"; expanduser_home p "/Downloads";
    expanduser_home p "/Desktop"; expanduser_home p "/github" ].

(** [str(e)] of the [NameError] raised by looking up an unbound global *)
Definition name_error_msg (name : string) : string :=
  "name '" ++ name ++ "' is not defined".

(** Lines 172-200 of [read_file]: the existence, kind and decoding steps. *)
Definition read_checked (fs : FileSystem) (file_path abs_path : string)
    : PyExc + list N :=
  if negb (exists_ fs abs_path) then
    inl (HTTPException 404 ("File not found: " ++ file_path
      ++ "
Please check:
1. The file exists
2. The path is correct
3. You have permission to access it"))
  else if negb (isfile fs abs_path) then
    inl (HTTPException 400 ("Path is not a file: " ++ file_path))
  else
    match fs abs_path with
    | Some (RegularFile bs) =>
        match try_encodings encodings bs with
        | Some content => inr content
        | None => inl (HTTPException 400 ("Could not read file " ++ file_path
                        ++ " with any of the supported encodings"))
        end
    | _ => inl (HTTPException 400 ("Path is not a file: " ++ file_path))
    end.

(** [read_file], lines 153-209, given the module-level binding of the name
    [is_path_allowed] ([None] when the module defines no such name). *)
Definition read_file_with (is_path_allowed : option (string -> bool))
    (p : Process) (fs : FileSystem) (file_path : string) : PyExc + list N :=
  match normalize_path p file_path with
  | inl e => inl e                                  (** [except HTTPException: raise] *)
  | inr file_path =>
      let abs_path := abspath (cwd p) file_path in
      match is_path_allowed with
      | None =>                                     (** [NameError], caught at line 204 *)
          inl (HTTPException 500 ("Error reading file " ++ file_path ++ ": "
                                  ++ name_error_msg "is_path_allowed"))
      | Some allowed =>
          if negb (allowed abs_path) then
            inl (HTTPException 403 ("Access to " ++ file_path
              ++ " is not allowed. File must be in one of these directories:
" ++ join "
" (ALLOWED_BASE_DIRS p)))
          else read_checked fs file_path abs_path
      end
  end.

(** Neither src/main.py nor any other module of the repository defines or
    imports [is_path_allowed]. *)
Definition is_path_allowed_binding : option (string -> bool) := None.

Definition read_file (p : Process) (fs : FileSystem) (file_path : string)
    : PyExc + list N :=
  read_file_with is_path_allowed_binding p fs file_path.

(** ** [count_r], lines 211-213 *)
Module Count.

(** [str.lower] on one code point of 0..255: the upper-case letters
    A-Z, U+00C0-U+00D6 and U+00D8-U+00DE map to the code point 32 above. *)
Definition lower_char (c : ascii) : ascii :=
  let n := nat_of_ascii c in
  if (Nat.leb 65 n && Nat.leb n 90)
     || (Nat.leb 192 n && Nat.leb n 222 && negb (Nat.eqb n 215))
  then ascii_of_nat (n + 32) else c.

(** [str.lower] *)
Fixpoint lower (s : string) : string :=
  match s with
  | EmptyString => EmptyString
  | String c r => String (lower_char c) (lower r)
  end.

(** [s.count(sub)]: non-overlapping occurrences scanned left to right *)
Fixpoint count_aux (fuel : nat) (s sub : string) : nat :=
  match fuel with
  | O => O
  | S fuel' =>
      if String.prefix sub s
      then S (count_aux fuel' (substring (String.length sub) (String.length s) s) sub)
      else match s with
           | EmptyString => O
           | String _ r => count_aux fuel' r sub
           end
  end.

Definition count (s sub : string) : nat := count_aux (S (String.length s)) s sub.

Definition count_r (text : string) : nat := count (lower text) "r".

(** The number of positions of [s] holding [c] *)
Definition occurrences (c : ascii) (s : string) : nat :=
  List.length (filter (Ascii.eqb c) (list_ascii_of_string s)).

End Count.
Import Count.

(** ** [execute_tool], lines 252-282 *)
Record AgentResponse := {
  response : list N;                          (** code points *)
  metadata : list (string * string)
}.

Definition codepoints (s : string) : list N :=
  map N_of_ascii (list_ascii_of_string s).

(** [str(n)] *)
Definition str_of_nat (n : nat) : string := NilEmpty.string_of_uint (Nat.to_uint n).

(** [not x] for an optional [str] *)
Definition falsy (x : option string) : bool :=
  match x with None => true | Some s => s =? "" end.

Definition execute_tool (p : Process) (fs : FileSystem) (tool_name : string)
    (parameters : list (string * string)) : PyExc + AgentResponse :=
  if tool_name =? "read_file" then
    let file_path := dict_get "file_path" parameters in
    match file_path with
    | Some fp =>
        if falsy file_path then inl (HTTPException 400 "file_path parameter is required")
        else match read_file p fs fp with
             | inl e => inl e
             | inr result =>
                 inr {| response := result;
                        metadata := [("status", "success"); ("tool", "read_file")] |}
             end
    | None => inl (HTTPException 400 "file_path parameter is required")
    end
  else if tool_name =? "count_r" then
    let text := dict_get "text" parameters in
    match text with
    | Some t =>
        if falsy text then inl (HTTPException 400 "text parameter is required")
        else inr {| response := codepoints (str_of_nat (count_r t));
                    metadata := [("status", "success"); ("tool", "count_r")] |}
    | None => inl (HTTPException 400 "text parameter is required")
    end
  else inl (HTTPException 404 ("Tool not found: " ++ tool_name)).

(** ** [MCPAgent.__init__], src/agent.py lines 6-10 *)
Record OpenAIModule := { openai_api_key : option string }.
Record MCPAgent := { api_key : string }.

(** Returns the agent and the [openai] module after [openai.api_key = ...]. *)
Definition MCPAgent_init (environ : list (string * string)) (openai : OpenAIModule)
    : PyExc + (MCPAgent * OpenAIModule) :=
  let key := dict_get "OPENAI_API_KEY" environ in
  if falsy key then inl (ValueError "OPENAI_API_KEY environment variable not set")
  else match key with
       | Some k => inr ({| api_key := k |}, {| openai_api_key := Some k |})
       | None => inl (ValueError "OPENAI_API_KEY environment variable not set")
       end.

(** ** [process_request], lines 220-250 *)
Module Prompt.

(** [c.isspace()] for a code point of 0..255 *)
Definition is_space (c : ascii) : bool :=
  let n := nat_of_ascii c in
  (Nat.leb 9 n && Nat.leb n 13) || (Nat.leb 28 n && Nat.leb n 32)
  || Nat.eqb n 133 || Nat.eqb n 160.

Fixpoint lstrip (s : string) : string :=
  match s with
  | EmptyString => EmptyString
  | String c r => if is_space c then lstrip r else s
  end.

(** [s.strip()] *)
Definition strip (s : string) : string :=
  string_of_list_ascii (rev (list_ascii_of_string
    (lstrip (string_of_list_ascii (rev (list_ascii_of_string (lstrip s))))))).

(** [sub in s] *)
Definition contains (sub s : string) : bool :=
  match String.index 0 sub s with Some _ => true | None => false end.

Fixpoint split_aux (fuel : nat) (sep s : string) : list string :=
  match fuel with
  | O => [s]
  | S fuel' =>
      match String.index 0 sep s with
      | Some n => substring 0 n s
                  :: split_aux fuel' sep (substring (n + String.length sep) (String.length s) s)
      | None => [s]
      end
  end.

(** [s.split(sep)] for a non-empty [sep] *)
Definition split (sep s : string) : list string := split_aux (S (String.length s)) sep s.

Definition index_error : string := "list index out of range".

(** [process_request]; [str_exc e] is [str(e)] of a caught exception. *)
Definition process_request (str_exc : PyExc -> string) (p : Process) (fs : FileSystem)
    (prompt : string) : PyExc + AgentResponse :=
  if contains "read_file" (lower prompt) then
    match nth_error (split "read_file" prompt) 1 with
    | None => inl (HTTPException 500 index_error)
    | Some part =>
        let file_path := strip part in
        match read_file p fs file_path with
        | inl e => inl (HTTPException 500 (str_exc e))
        | inr result =>
            inr {| response := result;
                   metadata := [("status", "success"); ("tool", "read_file")] |}
        end
    end
  else if contains "count_r" (lower prompt) then
    match nth_error (split "count_r" prompt) 1 with
    | None => inl (HTTPException 500 index_error)
    | Some part =>
        let text := strip part in
        inr {| response := codepoints ("Number of 'r' characters: " ++ str_of_nat (count_r text));
               metadata := [("status", "success"); ("tool", "count_r")] |}
    end
  else
    inr {| response := codepoints "Invalid tool request. Available tools: read_file, count_r";
           metadata := [("status", "error"); ("error", "invalid_tool")] |}.

End Prompt.

(** ** The port search of [__main__], lines 284-295; [is_port_in_use q]
    is the answer of the connection probe of [is_port_in_use] (lines
    121-123), asked once per port. [None] is [sys.exit(1)]. *)
Fixpoint select_port (is_port_in_use : Z -> bool) (port : Z) (attempts : nat) : option Z :=
  match attempts with
  | O => None
  | S attempts' =>
      if negb (is_port_in_use port) then Some port
      else select_port is_port_in_use (port + 1)%Z attempts'
  end.

Definition main_port (is_port_in_use : Z -> bool) : option Z :=
  select_port is_port_in_use 8081%Z 5.

(** ** [MCPAgent.process], src/agent.py lines 12-44 *)
Module Agent.









End Agent.

(** ** Concrete inputs *)
Definition demo_process : Process :=
  {| environ := [("HOME", "/home/u"); ("PROJ", "github/proj")];
     cwd := "/home/u"; pw_home := Some "/home/u" |}.

Definition empty_fs : FileSystem := fun _ => None.

(** A file system with one ASCII file [/home/u/Documents/notes.txt]
    holding ["hi"] and the directory [/home/u/Documents]. *)
Definition demo_fs : FileSystem := fun path =>
  if path =? "/home/u/Documents/notes.txt" then Some (RegularFile [104; 105]%N)
  else if path =? "/home/u/Documents" then Some Directory
  else None.

Definition demo_str_exc (e : PyExc) : string :=
  match e with HTTPException _ d => d | ValueError m => m end.

Definition demo_ports_in_use (q : Z) : bool := Z.leb q 8082.



(** * Path validation *)

Lemma normalize_path_cases : forall p fp,
  normalize_path p fp =
  if existsb (fun d => startswith (normalized p fp) d) (allowed_dirs p)
  then inr (normalized p fp) else inl access_denied.
Proof.
  intros p fp. unfold normalize_path.
  destruct (existsb _ _); reflexivity.
Qed.

Lemma normalize_path_error : forall p fp e,
  normalize_path p fp = inl e -> e = access_denied.
Proof.
  intros p fp e H. rewrite normalize_path_cases in H.
  destruct (existsb _ _); congruence.
Qed.

(** C1: a path whose normalized form starts with no entry of the allowed
    directories is rejected with [AccessDenied] (HTTP 403), and every path
    [normalize_path] returns starts with one of those entries. *)
Theorem normalize_path_confined : forall p fp,
  ((forall d, In d (allowed_dirs p) -> startswith (normalized p fp) d = false) ->
   normalize_path p fp = inl access_denied)
  /\ (forall v, normalize_path p fp = inr v ->
      v = normalized p fp /\ exists d, In d (allowed_dirs p) /\ startswith v d = true).
Proof.
  intros p fp. split.
  - intros Hnone. rewrite normalize_path_cases.
    destruct (existsb _ _) eqn:E; [|reflexivity].
    apply existsb_exists in E. destruct E as [d [Hin Hd]].
    rewrite (Hnone d Hin) in Hd. discriminate.
  - intros v Hv. rewrite normalize_path_cases in Hv.
    destruct (existsb _ _) eqn:E; [|discriminate].
    injection Hv as <-. split; [reflexivity|].
    apply existsb_exists in E. exact E.
Qed.

Lemma normalize_path_confined_witness :
  (forall d, In d (allowed_dirs demo_process) ->
     startswith (normalized demo_process "/etc/passwd") d = false)
  /\ normalize_path demo_process "/etc/passwd" = inl access_denied
  /\ normalize_path demo_process "Documents/a.txt" = inr "/home/u/Documents/a.txt"
  /\ "/home/u/Documents/a.txt" = normalized demo_process "Documents/a.txt"
  /\ exists d, In d (allowed_dirs demo_process)
              /\ startswith "/home/u/Documents/a.txt" d = true.
Proof.
  assert (H : forall d, In d (allowed_dirs demo_process) ->
            startswith (normalized demo_process "/etc/passwd") d = false).
  { intros d Hd. simpl in Hd.
    destruct Hd as [<-|[<-|[<-|[<-|[]]]]]; vm_compute; reflexivity. }
  assert (Hv : normalize_path demo_process "Documents/a.txt" = inr "/home/u/Documents/a.txt")
    by (vm_compute; reflexivity).
  split; [exact H|]. split.
  - exact (proj1 (normalize_path_confined demo_process "/etc/passwd") H).
  - split; [exact Hv|].
    exact (proj2 (normalize_path_confined demo_process "Documents/a.txt") _ Hv).
Defined.

(** C2: a path whose normalized form starts with an allowed directory is
    accepted, and the result is that normalized string, computed by
    [expandvars], then [abspath] against the working directory when the
    path is not absolute, then [normpath]. *)
Theorem normalize_path_accepts : forall p fp,
  (exists d, In d (allowed_dirs p) /\ startswith (normalized p fp) d = true) ->
  normalize_path p fp =
  inr (normpath (let e := expandvars (environ p) fp in
                 if isabs e then e else abspath (cwd p) e)).
Proof.
  intros p fp Hex. rewrite normalize_path_cases.
  destruct (existsb _ _) eqn:E.
  - unfold normalized. f_equal. f_equal.
    destruct (isabs (expandvars (environ p) fp)); reflexivity.
  - exfalso.
    assert (Hc : existsb (fun d => startswith (normalized p fp) d) (allowed_dirs p) = true)
      by (apply existsb_exists; exact Hex).
    congruence.
Qed.

Lemma normalize_path_accepts_witness :
  (exists d, In d (allowed_dirs demo_process)
     /\ startswith (normalized demo_process "$PROJ/./src/../main.py") d = true)
  /\ normalize_path demo_process "$PROJ/./src/../main.py" = inr "/home/u/github/proj/main.py".
Proof.
  assert (H : exists d, In d (allowed_dirs demo_process)
     /\ startswith (normalized demo_process "$PROJ/./src/../main.py") d = true).
  { exists "/home/u/github". split; [simpl; tauto | vm_compute; reflexivity]. }
  split; [exact H|].
  rewrite (normalize_path_accepts demo_process "$PROJ/./src/../main.py" H).
  vm_compute. reflexivity.
Defined.

(** C3 (the code): [normalize_path] accepts a path under [~/Documents2]
    when [~/Documents] is allowed; its raw [startswith] test has no
    separator boundary. *)
Theorem normalize_path_accepts_sibling_prefix :
  normalize_path demo_process "/home/u/Documents2/secret.txt"
  = inr "/home/u/Documents2/secret.txt"
  /\ normalize_path demo_process "$HOME/Documents2/secret.txt"
     = inr "/home/u/Documents2/secret.txt".
Proof. vm_compute. repeat split. Qed.

(** * The character counter *)

Lemma substring_all : forall s m, String.length s <= m -> substring 0 m s = s.
Proof.
  induction s as [|a s IH]; intros m Hm; destruct m as [|m]; simpl in *;
    try reflexivity; try lia.
  rewrite IH by lia. reflexivity.
Qed.

Lemma count_aux_char : forall fuel c s,
  String.length s < fuel -> count_aux fuel s (String c EmptyString) = occurrences c s.
Proof.
  induction fuel as [|fuel IH]; intros c s Hlt; [simpl in Hlt; lia|].
  destruct s as [|a r]; [reflexivity|].
  simpl in Hlt. unfold occurrences. simpl.
  destruct (ascii_dec c a) as [<-|Hne].
  - rewrite Ascii.eqb_refl. simpl.
    rewrite substring_all by lia.
    assert (Hp : String.prefix EmptyString r = true) by (destruct r; reflexivity).
    rewrite Hp. f_equal.
    apply IH. lia.
  - assert (E : Ascii.eqb c a = false) by (apply Ascii.eqb_neq; exact Hne).
    rewrite E. apply IH. lia.
Qed.

Lemma count_r_occurrences : forall t, count_r t = occurrences "r" (lower t).
Proof.
  intro t. unfold count_r, count. apply count_aux_char. lia.
Qed.

Lemma lower_app : forall a b, lower (a ++ b) = lower a ++ lower b.
Proof.
  induction a as [|c a IH]; intro b; simpl; [reflexivity|]. rewrite IH. reflexivity.
Qed.

Lemma lower_length : forall t, String.length (lower t) = String.length t.
Proof. induction t as [|c t IH]; simpl; congruence. Qed.

Lemma list_ascii_app : forall a b,
  list_ascii_of_string (a ++ b) = (list_ascii_of_string a ++ list_ascii_of_string b)%list.
Proof.
  induction a as [|c a IH]; intro b; simpl; [reflexivity|]. rewrite IH. reflexivity.
Qed.

Lemma occurrences_app : forall c a b,
  occurrences c (a ++ b) = occurrences c a + occurrences c b.
Proof.
  intros c a b. unfold occurrences.
  rewrite list_ascii_app, filter_app, length_app. reflexivity.
Qed.

Lemma occurrences_le : forall c s, occurrences c s <= String.length s.
Proof.
  induction s as [|a s IH]; unfold occurrences in *; simpl; [lia|].
  destruct (Ascii.eqb c a); simpl; lia.
Qed.

(** C7: [count_r] counts the ['r'] characters of the lower-cased input:
    [count_r "River" = 2], [count_r "" = 0], [count_r "RRrr" = 4], and in
    general the number of positions of [lower t] holding ['r']. *)
Theorem count_r_spec :
  count_r "River" = 2 /\ count_r "" = 0 /\ count_r "RRrr" = 4
  /\ forall t, count_r t = occurrences "r" (lower t).
Proof.
  split; [reflexivity|]. split; [reflexivity|]. split; [reflexivity|].
  exact count_r_occurrences.
Qed.

(** C10: [count_r] maps [""] to 0 and concatenation to addition, and
    never exceeds the length of its input. *)
Theorem count_r_monoid_hom :
  count_r "" = 0
  /\ (forall a b, count_r (a ++ b) = count_r a + count_r b)
  /\ (forall t, count_r t <= String.length t).
Proof.
  split; [reflexivity|]. split.
  - intros a b. rewrite !count_r_occurrences, lower_app. apply occurrences_app.
  - intro t. rewrite count_r_occurrences, <- (lower_length t). apply occurrences_le.
Qed.

(** * Reading files *)

Lemma latin1_total : forall bs, decode "latin-1" bs = Some bs.
Proof. reflexivity. Qed.

Lemma try_encodings_some : forall bs, exists content, try_encodings encodings bs = Some content.
Proof.
  intro bs. unfold encodings. simpl.
  destruct (read_text "utf-8" bs) as [c|]; [exists c; reflexivity|].
  eexists. reflexivity.
Qed.

Definition undecodable (file_path : string) : PyExc :=
  HTTPException 400 ("Could not read file " ++ file_path
                     ++ " with any of the supported encodings").

(** C6: ['latin-1'] decodes every byte sequence, so the loop over
    [encodings] always returns, and [read_file] never reports that no
    supported encoding could read the file, whatever [is_path_allowed] is. *)
Theorem read_file_never_undecodable :
  (forall bs, exists e, In e encodings /\ decode e bs <> None)
  /\ (forall bs, try_encodings encodings bs <> None)
  /\ (forall is_path_allowed p fs fp x,
        read_file_with is_path_allowed p fs fp <> inl (undecodable x)).
Proof.
  split; [|split].
  - intro bs. exists "latin-1". split; [simpl; tauto | discriminate].
  - intro bs. destruct (try_encodings_some bs) as [c ->]. discriminate.
  - intros ipa p fs fp x H. unfold read_file_with, undecodable in H.
    destruct (normalize_path p fp) as [e|v] eqn:Hn.
    + apply normalize_path_error in Hn. subst e. discriminate.
    + destruct ipa as [allowed|]; [|discriminate].
      destruct (allowed (abspath (cwd p) v)); cbn [negb] in H; [|discriminate].
      unfold read_checked in H.
      destruct (exists_ fs (abspath (cwd p) v)); cbn [negb] in H; [|discriminate].
      destruct (isfile fs (abspath (cwd p) v)); cbn [negb] in H; [|discriminate].
      destruct (fs (abspath (cwd p) v)) as [[bs| |]|]; try discriminate.
      destruct (try_encodings_some bs) as [c Hc]. rewrite Hc in H. discriminate.
Qed.

Lemma read_file_validated_500 : forall p fs fp v,
  normalize_path p fp = inr v ->
  read_file p fs fp = inl (HTTPException 500 ("Error reading file " ++ v ++ ": "
                                               ++ name_error_msg "is_path_allowed")).
Proof.
  intros p fs fp v Hv. unfold read_file, read_file_with. rewrite Hv. reflexivity.
Qed.

(** C4 (the code): reading the validated, non-existent path
    [/home/u/Documents/missing.txt], or the validated directory
    [/home/u/Documents], fails with status 500: [read_file] calls
    [is_path_allowed], a name bound nowhere, and the [NameError] is turned
    into an unexpected failure before the existence check runs. *)
Theorem read_file_missing_is_500 :
  normalize_path demo_process "/home/u/Documents/missing.txt"
    = inr "/home/u/Documents/missing.txt"
  /\ demo_fs "/home/u/Documents/missing.txt" = None
  /\ read_file demo_process demo_fs "/home/u/Documents/missing.txt"
     = inl (HTTPException 500 "Error reading file /home/u/Documents/missing.txt: name 'is_path_allowed' is not defined")
  /\ read_file demo_process demo_fs "~/Documents"
     = inl (HTTPException 403 "File must be in Documents, Downloads, Desktop, or github directory")
  /\ read_file demo_process demo_fs "/home/u/Documents"
     = inl (HTTPException 500 "Error reading file /home/u/Documents: name 'is_path_allowed' is not defined")
  /\ read_checked demo_fs "/home/u/Documents/missing.txt" "/home/u/Documents/missing.txt"
     = inl (HTTPException 404 ("File not found: /home/u/Documents/missing.txt" ++ "
Please check:
1. The file exists
2. The path is correct
3. You have permission to access it")).
Proof. vm_compute. repeat split. Qed.

(** C5 (the code): reading the validated ASCII file
    [/home/u/Documents/notes.txt] holding ["hi"] fails with status 500
    instead of returning ["hi"], for the same unbound [is_path_allowed];
    the decoding steps after it would return ["hi"]. *)
Theorem read_file_ascii_is_500 :
  read_file demo_process demo_fs "/home/u/Documents/notes.txt"
  = inl (HTTPException 500 "Error reading file /home/u/Documents/notes.txt: name 'is_path_allowed' is not defined")
  /\ read_checked demo_fs "/home/u/Documents/notes.txt" "/home/u/Documents/notes.txt"
     = inr (codepoints "hi").
Proof. vm_compute. split; reflexivity. Qed.

(** * The agent's credential *)

Definition no_openai : OpenAIModule := {| openai_api_key := None |}.

(** C8 as stated fails: with [OPENAI_API_KEY] present but empty,
    constructing [MCPAgent] raises [ValueError]. *)
Lemma MCPAgent_init_empty_key_fails :
  MCPAgent_init [("OPENAI_API_KEY", "")] no_openai
  = inl (ValueError "OPENAI_API_KEY environment variable not set").
Proof. reflexivity. Qed.

(** C8 (amended): constructing [MCPAgent] raises [ValueError] when
    [OPENAI_API_KEY] is absent or empty, and otherwise stores the key in
    the agent and in the [openai] module. *)
Theorem MCPAgent_init_spec : forall environ openai,
  ((dict_get "OPENAI_API_KEY" environ = None \/ dict_get "OPENAI_API_KEY" environ = Some "") ->
   MCPAgent_init environ openai = inl (ValueError "OPENAI_API_KEY environment variable not set"))
  /\ (forall k, dict_get "OPENAI_API_KEY" environ = Some k -> k <> "" ->
      MCPAgent_init environ openai = inr ({| api_key := k |}, {| openai_api_key := Some k |})).
Proof.
  intros env m. unfold MCPAgent_init. split.
  - intros [H|H]; rewrite H; reflexivity.
  - intros k Hk Hne. rewrite Hk. unfold falsy.
    destruct (String.eqb_spec k "") as [E|E]; [contradiction|reflexivity].
Qed.

Lemma MCPAgent_init_spec_witness :
  MCPAgent_init [] no_openai = inl (ValueError "OPENAI_API_KEY environment variable not set")
  /\ MCPAgent_init [("OPENAI_API_KEY", "sk-1")] no_openai
     = inr ({| api_key := "sk-1" |}, {| openai_api_key := Some "sk-1" |}).
Proof.
  split.
  - apply (proj1 (MCPAgent_init_spec [] no_openai)). left. reflexivity.
  - apply (proj2 (MCPAgent_init_spec [("OPENAI_API_KEY", "sk-1")] no_openai) "sk-1");
      [reflexivity | discriminate].
Defined.

(** * The tool endpoint *)

(** C9: an empty [file_path] for [read_file], or an empty [text] for
    [count_r], is answered with the 400 "parameter is required" error
    without running the tool. *)
Theorem execute_tool_empty_param : forall p fs params,
  (dict_get "file_path" params = Some "" ->
   execute_tool p fs "read_file" params
   = inl (HTTPException 400 "file_path parameter is required"))
  /\ (dict_get "text" params = Some "" ->
      execute_tool p fs "count_r" params
      = inl (HTTPException 400 "text parameter is required")).
Proof.
  intros p fs params. unfold execute_tool. split; intro H; rewrite H; reflexivity.
Qed.

Lemma execute_tool_empty_param_witness :
  execute_tool demo_process demo_fs "read_file" [("file_path", "")]
  = inl (HTTPException 400 "file_path parameter is required")
  /\ execute_tool demo_process demo_fs "count_r" [("text", "")]
     = inl (HTTPException 400 "text parameter is required").
Proof.
  split.
  - apply (proj1 (execute_tool_empty_param demo_process demo_fs [("file_path", "")])).
    reflexivity.
  - apply (proj2 (execute_tool_empty_param demo_process demo_fs [("text", "")])).
    reflexivity.
Defined.

Lemma read_file_never_undecodable_witness :
  decode "latin-1" [255; 0x81]%N <> None
  /\ try_encodings encodings [0xC3; 0x28; 0x81]%N <> None
  /\ read_file demo_process demo_fs "/home/u/Documents/notes.txt"
     <> inl (undecodable "/home/u/Documents/notes.txt").
Proof.
  split; [|split].
  - discriminate.
  - exact (proj1 (proj2 read_file_never_undecodable) [0xC3; 0x28; 0x81]%N).
  - exact (proj2 (proj2 read_file_never_undecodable) is_path_allowed_binding
             demo_process demo_fs "/home/u/Documents/notes.txt"
             "/home/u/Documents/notes.txt").
Defined.
Lemma translate_newlines_cons : forall c r,
  translate_newlines (c :: r) =
  if (c =? 13)%N then
    match r with
    | d :: r' => if (d =? 10)%N then 10%N :: translate_newlines r'
                 else 10%N :: translate_newlines r
    | [] => [10%N]
    end
  else c :: translate_newlines r.
Proof.
  intros c r.
  destruct (N.eqb_spec c 13) as [->|Hc].
  - destruct r as [|d r']; [reflexivity|].
    destruct (N.eqb_spec d 10) as [->|Hd]; [reflexivity|].
    destruct d as [|d]; [reflexivity|].
    repeat (destruct d as [d|d|]; try reflexivity); exfalso; apply Hd; reflexivity.
  - destruct c as [|c]; [reflexivity|].
    repeat (destruct c as [c|c|]; try reflexivity); exfalso; apply Hc; reflexivity.
Qed.

(** * Further properties of the code *)

Lemma startswith_slash : forall s, startswith s "/" = true <-> exists r, s = String "/" r.
Proof.
  intro s. unfold startswith. split.
  - intro H. destruct s as [|c r]; [discriminate H|]. cbn [String.prefix] in H.
    destruct (ascii_dec "/" c) as [<-|]; [exists r; reflexivity | discriminate H].
  - intros [r ->]. simpl. destruct r; reflexivity.
Qed.

Lemma normpath_abs : forall s, startswith s "/" = true -> startswith (normpath s) "/" = true.
Proof.
  intros s H. unfold normpath.
  destruct (proj1 (startswith_slash s) H) as [r Hr].
  assert (Hne : (s =? "") = false) by (rewrite Hr; reflexivity).
  rewrite Hne, H.
  set (q := join "/" _).
  destruct (_ && _); simpl;
    first [reflexivity | unfold startswith; destruct q; reflexivity
           | apply startswith_slash; eexists; reflexivity].
Qed.


Lemma read_file_no_content : forall p fs fp content, read_file p fs fp <> inr content.
Proof.
  intros p fs fp content. unfold read_file, read_file_with.
  destruct (normalize_path p fp); discriminate.
Qed.

Lemma try_encodings_utf8_latin1 : forall bs,
  try_encodings encodings bs =
  Some (translate_newlines (match utf8_decode bs with Some c => c | None => bs end)).
Proof.
  intro bs. unfold encodings, try_encodings, read_text, decode. simpl.
  destruct (utf8_decode bs); reflexivity.
Qed.

Lemma normalized_absolute : forall p fp,
  startswith (cwd p) "/" = true -> startswith (normalized p fp) "/" = true.
Proof.
  intros p fp Hcwd.
  unfold normalized. apply normpath_abs.
  destruct (isabs (expandvars (environ p) fp)) eqn:Ha; [exact Ha|].
  simpl. unfold abspath. rewrite Ha. apply normpath_abs.
  unfold join2. unfold isabs in Ha. rewrite Ha.
  destruct (proj1 (startswith_slash _) Hcwd) as [c Hc]. rewrite Hc.
  destruct (_ || _); apply startswith_slash; eexists; reflexivity.
Qed.

(** [read_file] as the module stands: a path the validator rejects gets
    the 403 [AccessDenied] error, any other path the 500 [NameError]
    report; it never returns file contents. *)
Theorem read_file_outcomes : forall p fs fp,
  read_file p fs fp =
  match normalize_path p fp with
  | inl _ => inl access_denied
  | inr v => inl (HTTPException 500 ("Error reading file " ++ v ++ ": "
                                      ++ name_error_msg "is_path_allowed"))
  end
  /\ forall content, read_file p fs fp <> inr content.
Proof.
  intros p fs fp.
  assert (E : read_file p fs fp =
    match normalize_path p fp with
    | inl _ => inl access_denied
    | inr v => inl (HTTPException 500 ("Error reading file " ++ v ++ ": "
                                        ++ name_error_msg "is_path_allowed"))
    end).
  { destruct (normalize_path p fp) as [e|v] eqn:Hn.
    - unfold read_file, read_file_with. rewrite Hn.
      apply normalize_path_error in Hn. subst e. reflexivity.
    - apply read_file_validated_500. exact Hn. }
  split; [exact E|]. apply read_file_no_content.
Qed.

(** The encoding loop returns the universal-newline translation of the
    utf-8 decoding when the bytes are valid utf-8, and of the latin-1
    decoding (the bytes themselves) otherwise: cp1252 is never used. *)
Theorem try_encodings_order : forall bs,
  try_encodings encodings bs =
  Some (translate_newlines (match utf8_decode bs with Some c => c | None => bs end)).
Proof. exact try_encodings_utf8_latin1. Qed.



Lemma utf8_decode_ascii : forall bs,
  Forall (fun b => (b < 128)%N) bs -> utf8_decode bs = Some bs.
Proof.
  induction bs as [|b bs IH]; intros H; [reflexivity|].
  inversion H as [|? ? Hb Hbs]; subst. simpl.
  assert (E : (b <? 0x80)%N = true) by (apply N.ltb_lt; exact Hb).
  rewrite E, (IH Hbs). reflexivity.
Qed.

(** A file made of ASCII bytes is decoded by utf-8 to the same code
    points, so the encoding loop returns them with only the newline
    translation applied. *)
Theorem try_encodings_ascii : forall bs,
  Forall (fun b => (b < 128)%N) bs ->
  utf8_decode bs = Some bs /\ try_encodings encodings bs = Some (translate_newlines bs).
Proof.
  intros bs H. pose proof (utf8_decode_ascii bs H) as E. split; [exact E|].
  rewrite try_encodings_utf8_latin1, E. reflexivity.
Qed.

Lemma try_encodings_ascii_witness :
  Forall (fun b => (b < 128)%N) [104; 13; 10; 105]%N
  /\ try_encodings encodings [104; 13; 10; 105]%N = Some [104; 10; 105]%N.
Proof.
  assert (H : Forall (fun b => (b < 128)%N) [104; 13; 10; 105]%N)
    by (repeat constructor).
  split; [exact H|].
  rewrite (proj2 (try_encodings_ascii _ H)). reflexivity.
Defined.

Lemma translate_newlines_len : forall n cs, List.length cs <= n ->
  ~ In 13%N (translate_newlines cs) /\ (~ In 13%N cs -> translate_newlines cs = cs).
Proof.
  induction n as [|n IH]; intros cs Hlen.
  - destruct cs; [split; [simpl; tauto | reflexivity] | simpl in Hlen; lia].
  - destruct cs as [|c r]; [split; [simpl; tauto | reflexivity]|].
    rewrite translate_newlines_cons. simpl in Hlen.
    destruct (N.eqb_spec c 13) as [->|Hc].
    + split; [|intros H; exfalso; apply H; left; reflexivity].
      destruct r as [|d r'].
      * simpl. intros [H|H]; [discriminate|exact H].
      * simpl in Hlen.
        destruct (N.eqb_spec d 10).
        -- intros [H|H]; [discriminate|].
           apply (proj1 (IH r' ltac:(lia))). exact H.
        -- intros [H|H]; [discriminate|].
           apply (proj1 (IH (d :: r') ltac:(simpl; lia))). exact H.
    + destruct (IH r ltac:(lia)) as [IH1 IH2]. split.
      * intros [H|H]; [congruence|exact (IH1 H)].
      * intros H. rewrite IH2; [reflexivity|].
        intros H'. apply H. right. exact H'.
Qed.

(** Text-mode reading never returns a carriage return, and leaves text
    without carriage returns unchanged. *)
Theorem translate_newlines_no_cr : forall cs,
  ~ In 13%N (translate_newlines cs) /\ (~ In 13%N cs -> translate_newlines cs = cs).
Proof. intro cs. apply (translate_newlines_len (List.length cs)). lia. Qed.

Lemma translate_newlines_no_cr_witness :
  ~ In 13%N [104; 10; 105]%N /\ translate_newlines [104; 10; 105]%N = [104; 10; 105]%N.
Proof.
  assert (H : ~ In 13%N [104; 10; 105]%N) by (simpl; intuition discriminate).
  split; [exact H|]. exact (proj2 (translate_newlines_no_cr _) H).
Defined.

(** With an absolute working directory, every path [normalize_path]
    accepts is absolute. *)
Theorem normalize_path_absolute : forall p fp v,
  startswith (cwd p) "/" = true -> normalize_path p fp = inr v -> startswith v "/" = true.
Proof.
  intros p fp v Hcwd Hv. rewrite normalize_path_cases in Hv.
  destruct (existsb _ _); [|discriminate].
  injection Hv as <-. apply normalized_absolute. exact Hcwd.
Qed.

Lemma normalize_path_absolute_witness :
  startswith (cwd demo_process) "/" = true
  /\ normalize_path demo_process "Desktop/../Desktop/t.txt" = inr "/home/u/Desktop/t.txt"
  /\ startswith "/home/u/Desktop/t.txt" "/" = true.
Proof.
  assert (H1 : startswith (cwd demo_process) "/" = true) by reflexivity.
  assert (H2 : normalize_path demo_process "Desktop/../Desktop/t.txt"
               = inr "/home/u/Desktop/t.txt") by (vm_compute; reflexivity).
  split; [exact H1|]. split; [exact H2|].
  exact (normalize_path_absolute demo_process _ _ H1 H2).
Defined.

(** ** The tool endpoint *)

(** Any tool name other than [read_file] and [count_r] gets the 404
    "Tool not found" error, whatever the parameters. *)
Theorem execute_tool_unknown_tool : forall p fs name params,
  name <> "read_file" -> name <> "count_r" ->
  execute_tool p fs name params = inl (HTTPException 404 ("Tool not found: " ++ name)).
Proof.
  intros p fs name params H1 H2. unfold execute_tool.
  destruct (String.eqb_spec name "read_file"); [contradiction|].
  destruct (String.eqb_spec name "count_r"); [contradiction|].
  reflexivity.
Qed.

Lemma execute_tool_unknown_tool_witness :
  "list_files" <> "read_file" /\ "list_files" <> "count_r"
  /\ execute_tool demo_process demo_fs "list_files" []
     = inl (HTTPException 404 ("Tool not found: " ++ "list_files")).
Proof.
  assert (H1 : "list_files" <> "read_file") by discriminate.
  assert (H2 : "list_files" <> "count_r") by discriminate.
  split; [exact H1|]. split; [exact H2|].
  exact (execute_tool_unknown_tool demo_process demo_fs "list_files" [] H1 H2).
Defined.

(** A request whose parameters lack [file_path] (for [read_file]) or
    [text] (for [count_r]) gets the 400 "parameter is required" error. *)
Theorem execute_tool_missing_param : forall p fs params,
  (dict_get "file_path" params = None ->
   execute_tool p fs "read_file" params
   = inl (HTTPException 400 "file_path parameter is required"))
  /\ (dict_get "text" params = None ->
      execute_tool p fs "count_r" params
      = inl (HTTPException 400 "text parameter is required")).
Proof.
  intros p fs params. unfold execute_tool. split; intro H; rewrite H; reflexivity.
Qed.

Lemma execute_tool_missing_param_witness :
  execute_tool demo_process demo_fs "read_file" [("text", "x")]
  = inl (HTTPException 400 "file_path parameter is required")
  /\ execute_tool demo_process demo_fs "count_r" [("file_path", "x")]
     = inl (HTTPException 400 "text parameter is required").
Proof.
  split.
  - apply (proj1 (execute_tool_missing_param demo_process demo_fs [("text", "x")])).
    reflexivity.
  - apply (proj2 (execute_tool_missing_param demo_process demo_fs [("file_path", "x")])).
    reflexivity.
Defined.

(** A non-empty [text] is answered with the decimal rendering of
    [count_r text]. *)
Theorem execute_tool_count_r_ok : forall p fs params t,
  dict_get "text" params = Some t -> t <> "" ->
  execute_tool p fs "count_r" params
  = inr {| response := codepoints (str_of_nat (count_r t));
           metadata := [("status", "success"); ("tool", "count_r")] |}.
Proof.
  intros p fs params t H Hne. unfold execute_tool. simpl. rewrite H. unfold falsy.
  destruct (String.eqb_spec t ""); [contradiction|reflexivity].
Qed.

Lemma execute_tool_count_r_ok_witness :
  execute_tool demo_process demo_fs "count_r" [("text", "Strawberry")]
  = inr {| response := codepoints "3";
           metadata := [("status", "success"); ("tool", "count_r")] |}.
Proof.
  rewrite (execute_tool_count_r_ok demo_process demo_fs [("text", "Strawberry")] "Strawberry"
             eq_refl ltac:(discriminate)).
  reflexivity.
Defined.

(** The [read_file] tool never answers successfully: a non-empty path
    gets exactly the error [read_file] raises (403 or 500). *)
Theorem execute_tool_read_file_fails : forall p fs params,
  (forall r, execute_tool p fs "read_file" params <> inr r)
  /\ (forall fp, dict_get "file_path" params = Some fp -> fp <> "" ->
      exists e, read_file p fs fp = inl e /\ execute_tool p fs "read_file" params = inl e).
Proof.
  intros p fs params. unfold execute_tool. simpl. split.
  - intros r. destruct (dict_get "file_path" params) as [fp|]; [|discriminate].
    destruct (falsy (Some fp)); [discriminate|].
    destruct (read_file p fs fp) as [e|c] eqn:E; [discriminate|].
    exfalso. exact (read_file_no_content p fs fp c E).
  - intros fp H Hne. rewrite H. unfold falsy.
    destruct (String.eqb_spec fp ""); [contradiction|].
    destruct (read_file p fs fp) as [e|c] eqn:E.
    + exists e. split; reflexivity.
    + exfalso. exact (read_file_no_content p fs fp c E).
Qed.

Lemma execute_tool_read_file_fails_witness :
  exists e, read_file demo_process demo_fs "/etc/passwd" = inl e
            /\ execute_tool demo_process demo_fs "read_file" [("file_path", "/etc/passwd")]
               = inl e.
Proof.
  exact (proj2 (execute_tool_read_file_fails demo_process demo_fs
                  [("file_path", "/etc/passwd")]) "/etc/passwd" eq_refl ltac:(discriminate)).
Defined.

(** ** The prompt endpoint *)

Lemma split_no_sep : forall sep s, Prompt.contains sep s = false -> Prompt.split sep s = [s].
Proof.
  intros sep s H. unfold Prompt.contains in H. unfold Prompt.split. simpl.
  destruct (String.index 0 sep s); [discriminate|reflexivity].
Qed.





Section PromptEndpoint.

(** [str(e)] of an exception caught at line 248 *)
Variable str_exc : PyExc -> string.


(** A tool keyword matched only case-insensitively (it occurs in the
    lower-cased prompt but not in the prompt) makes [split(...)[1]] raise
    [IndexError], reported as 500 "list index out of range". *)
Theorem process_request_keyword_case_mismatch : forall p fs prompt,
  (Prompt.contains "read_file" (lower prompt) = true ->
   Prompt.contains "read_file" prompt = false ->
   Prompt.process_request str_exc p fs prompt = inl (HTTPException 500 Prompt.index_error))
  /\ (Prompt.contains "read_file" (lower prompt) = false ->
      Prompt.contains "count_r" (lower prompt) = true ->
      Prompt.contains "count_r" prompt = false ->
      Prompt.process_request str_exc p fs prompt = inl (HTTPException 500 Prompt.index_error)).
Proof.
  intros p fs prompt. unfold Prompt.process_request. split.
  - intros H1 H2. rewrite H1, (split_no_sep _ _ H2). reflexivity.
  - intros H1 H2 H3. rewrite H1, H2, (split_no_sep _ _ H3). reflexivity.
Qed.


(** A prompt with neither keyword, in any case, gets the [invalid_tool]
    answer and never an error. *)
Theorem process_request_no_tool : forall p fs prompt,
  Prompt.contains "read_file" (lower prompt) = false ->
  Prompt.contains "count_r" (lower prompt) = false ->
  Prompt.process_request str_exc p fs prompt
  = inr {| response := codepoints "Invalid tool request. Available tools: read_file, count_r";
           metadata := [("status", "error"); ("error", "invalid_tool")] |}.
Proof.
  intros p fs prompt H1 H2. unfold Prompt.process_request. rewrite H1, H2. reflexivity.
Qed.

End PromptEndpoint.



Lemma process_request_keyword_case_mismatch_witness :
  Prompt.process_request demo_str_exc demo_process demo_fs "READ_FILE /etc/passwd"
  = inl (HTTPException 500 Prompt.index_error)
  /\ Prompt.process_request demo_str_exc demo_process demo_fs "Count_R error"
     = inl (HTTPException 500 Prompt.index_error).
Proof.
  split.
  - apply (proj1 (process_request_keyword_case_mismatch demo_str_exc demo_process demo_fs
                    "READ_FILE /etc/passwd")); vm_compute; reflexivity.
  - apply (proj2 (process_request_keyword_case_mismatch demo_str_exc demo_process demo_fs
                    "Count_R error")); vm_compute; reflexivity.
Defined.


Lemma process_request_no_tool_witness :
  Prompt.process_request demo_str_exc demo_process demo_fs "hello"
  = inr {| response := codepoints "Invalid tool request. Available tools: read_file, count_r";
           metadata := [("status", "error"); ("error", "invalid_tool")] |}.
Proof. apply process_request_no_tool; vm_compute; reflexivity. Defined.

(** ** The port search *)

Lemma select_port_some : forall in_use n port q,
  select_port in_use port n = Some q ->
  (port <= q < port + Z.of_nat n)%Z /\ in_use q = false
  /\ forall k, (port <= k < q)%Z -> in_use k = true.
Proof.
  induction n as [|n IH]; intros port q H; simpl in H; [discriminate|].
  destruct (in_use port) eqn:E; simpl in H.
  - destruct (IH _ _ H) as [Hr [Hq Hk]]. split; [lia|]. split; [exact Hq|].
    intros k Hk'. destruct (Z.eq_dec k port) as [->|Hne]; [exact E|].
    apply Hk. lia.
  - injection H as <-. split; [lia|]. split; [exact E|]. intros k Hk. lia.
Qed.

Lemma select_port_none : forall in_use n port,
  select_port in_use port n = None <->
  forall k, (port <= k < port + Z.of_nat n)%Z -> in_use k = true.
Proof.
  induction n as [|n IH]; intros port; simpl.
  - split; [intros _ k Hk; lia | reflexivity].
  - destruct (in_use port) eqn:E; simpl.
    + rewrite IH. split.
      * intros H k Hk. destruct (Z.eq_dec k port) as [->|Hne]; [exact E|]. apply H. lia.
      * intros H k Hk. apply H. lia.
    + split; [discriminate|]. intros H. rewrite (H port) in E; [discriminate|lia].
Qed.

(** The server starts on the first free port among 8081..8085 (every
    lower one of them is taken), and exits when all five are taken. *)
Theorem main_port_spec : forall is_port_in_use,
  (forall q, main_port is_port_in_use = Some q ->
     (8081 <= q <= 8085)%Z /\ is_port_in_use q = false
     /\ forall k, (8081 <= k < q)%Z -> is_port_in_use k = true)
  /\ (main_port is_port_in_use = None <->
      forall k, (8081 <= k <= 8085)%Z -> is_port_in_use k = true).
Proof.
  intros in_use. unfold main_port. split.
  - intros q H. destruct (select_port_some in_use 5 8081 q H) as [Hr [Hq Hk]].
    split; [simpl in Hr; lia|]. split; [exact Hq | exact Hk].
  - rewrite select_port_none. simpl. split; intros H k Hk; apply H; lia.
Qed.


Lemma main_port_spec_witness :
  main_port demo_ports_in_use = Some 8083%Z
  /\ (8081 <= 8083 <= 8085)%Z /\ demo_ports_in_use 8083 = false
  /\ (forall k, (8081 <= k < 8083)%Z -> demo_ports_in_use k = true)
  /\ main_port (fun _ => true) = None.
Proof.
  assert (H : main_port demo_ports_in_use = Some 8083%Z) by reflexivity.
  destruct (proj1 (main_port_spec demo_ports_in_use) 8083%Z H) as [H1 [H2 H3]].
  split; [exact H|]. split; [exact H1|]. split; [exact H2|]. split; [exact H3|].
  apply (proj2 (main_port_spec (fun _ => true))). intros k _. reflexivity.
Defined.

(** ** The agent's upstream request *)





(** ** No home directory *)



